(** * Access control of the [User] list (examples-next/auth/schema.ts)

    The schema file declares one list, [User], whose access-control and
    admin-UI predicates are small JavaScript arrow functions over a
    [session] and an [item].  [Session] is typed [any] in the source, so the
    predicates are embedded over untyped JavaScript values, with the
    language rules they rely on written out: [ToBoolean], strict equality,
    property reads (which throw a [TypeError] on [undefined] and [null]),
    optional chaining, [&&], [||] and the conditional operator. *)

From Stdlib Require Import String List Bool ZArith PrimFloat.
Import ListNotations.
Local Open Scope string_scope.
Set Warnings "-register-all".

(** ** JavaScript values and the operators the predicates use *)

Module JS.

(** A value of the language.  Numbers are IEEE binary64, as in the
    language.  An object (a function is one too) carries its identity
    [ref], which is what [===] compares, and its own data properties in
    insertion order; the predicates only read them. *)
Inductive value : Type :=
| VUndefined
| VNull
| VBool (b : bool)
| VNum (x : float)
| VBigInt (n : Z)
| VStr (s : string)
| VSym (id : nat)
| VObj (ref : nat) (props : list (string * value)).

(** The outcome of evaluating an expression: a value, or the [TypeError]
    raised by reading a property of [undefined] or [null]. *)
Inductive completion (A : Type) : Type :=
| Normal (a : A)
| ThrowTypeError.
Arguments Normal {A} a.
Arguments ThrowTypeError {A}.

Definition bind {A B : Type} (c : completion A) (k : A -> completion B)
  : completion B :=
  match c with
  | Normal a => k a
  | ThrowTypeError => ThrowTypeError
  end.

(** [ToBoolean]: [undefined], [null], [false], [0], [-0], [NaN], [0n] and
    the empty string are falsy, everything else is truthy. *)
Definition truthy (v : value) : bool :=
  match v with
  | VUndefined | VNull => false
  | VBool b => b
  | VNum x => PrimFloat.eqb x x && negb (PrimFloat.eqb x 0%float)
  | VBigInt n => negb (Z.eqb n 0)
  | VStr s => negb (String.eqb s "")
  | VSym _ | VObj _ _ => true
  end.

Definition nullish (v : value) : bool :=
  match v with
  | VUndefined | VNull => true
  | _ => false
  end.

(** [a === b]: no conversion; numbers by IEEE equality (so [NaN] differs
    from itself and [0] equals [-0]), objects and symbols by identity. *)
Definition strict_eq (a b : value) : bool :=
  match a, b with
  | VUndefined, VUndefined => true
  | VNull, VNull => true
  | VBool x, VBool y => Bool.eqb x y
  | VNum x, VNum y => PrimFloat.eqb x y
  | VBigInt x, VBigInt y => Z.eqb x y
  | VStr x, VStr y => String.eqb x y
  | VSym x, VSym y => Nat.eqb x y
  | VObj x _, VObj y _ => Nat.eqb x y
  | _, _ => false
  end.

Fixpoint own (props : list (string * value)) (key : string) : value :=
  match props with
  | [] => VUndefined
  | (k, v) :: rest => if String.eqb k key then v else own rest key
  end.

(** [v.key].  Reading from [undefined] or [null] throws; a primitive has
    none of the keys this file reads ([data], [isAdmin], [itemId]), and
    neither has [Object.prototype], so inherited properties are left out. *)
Definition get (v : value) (key : string) : completion value :=
  match v with
  | VUndefined | VNull => ThrowTypeError
  | VObj _ props => Normal (own props key)
  | _ => Normal VUndefined
  end.

(** [v?.rest]: when [v] is [undefined] or [null] the whole rest of the
    chain is skipped and the chain is [undefined]. *)
Definition opt (v : value) (rest : value -> completion value)
  : completion value :=
  if nullish v then Normal VUndefined else rest v.

(** The framework's reading of a predicate's outcome: it allows on a
    truthy value, it denies on a falsy one; a throw is neither. *)
Definition allows (c : completion value) : bool :=
  match c with
  | Normal v => truthy v
  | ThrowTypeError => false
  end.

Definition denies (c : completion value) : bool :=
  match c with
  | Normal v => negb (truthy v)
  | ThrowTypeError => false
  end.

Definition throws {A : Type} (c : completion A) : bool :=
  match c with
  | Normal _ => false
  | ThrowTypeError => true
  end.

Definition is_boolean (c : completion value) : bool :=
  match c with
  | Normal (VBool _) => true
  | _ => false
  end.

End JS.
Import JS.

Declare Scope js_scope.
Delimit Scope js_scope with js.
Notation "x <- c ;; k" := (bind c (fun x => k))
  (at level 61, c at next level, right associativity) : js_scope.
Local Open Scope js_scope.

(** ** The predicates of the [User] list *)

Inductive FieldMode : Type := edit | read | hidden.

(** [delete: ({ session }) => session?.data?.isAdmin] *)
Definition User_access_delete (session : value) : completion value :=
  opt session (fun s =>
    d <- get s "data" ;;
    opt d (fun d => get d "isAdmin")).

(** [hideDelete: ({ session }) => session?.data?.isAdmin] *)
Definition User_admin_hideDelete (session : value) : completion value :=
  opt session (fun s =>
    d <- get s "data" ;;
    opt d (fun d => get d "isAdmin")).

(** The condition shared by the two password predicates:
    [session && (session.data.isAdmin || session.itemId === item.itemId)] *)
Definition password_condition (session item : value) : completion value :=
  if truthy session then
    d <- get session "data" ;;
    a <- get d "isAdmin" ;;
    if truthy a then Normal a
    else
      sid <- get session "itemId" ;;
      iid <- get item "itemId" ;;
      Normal (VBool (strict_eq sid iid))
  else Normal session.

(** [update: ({ session, item }) =>
       session && (session.data.isAdmin || session.itemId === item.itemId)] *)
Definition password_access_update (session item : value) : completion value :=
  password_condition session item.

(** [fieldMode: ({ session, item }) =>
       session && (session.data.isAdmin || session.itemId === item.itemId)
         ? 'edit' : 'hidden'] *)
Definition password_itemView_fieldMode (session item : value)
  : completion FieldMode :=
  c <- password_condition session item ;;
  Normal (if truthy c then edit else hidden).

(** [update: ({ session }) => session?.data.isAdmin] *)
Definition isAdmin_access_update (session : value) : completion value :=
  opt session (fun s => d <- get s "data" ;; get d "isAdmin").

(** [fieldMode: ({ session }) => (session?.data.isAdmin ? 'edit' : 'read')] *)
Definition isAdmin_itemView_fieldMode (session : value)
  : completion FieldMode :=
  c <- opt session (fun s => d <- get s "data" ;; get d "isAdmin") ;;
  Normal (if truthy c then edit else read).

(** [update: ({ session }) => session?.data.isAdmin] *)
Definition isEnabled_access_update (session : value) : completion value :=
  opt session (fun s => d <- get s "data" ;; get d "isAdmin").

(** [fieldMode: ({ session }) => (session?.data.isAdmin ? 'edit' : 'read')] *)
Definition isEnabled_itemView_fieldMode (session : value)
  : completion FieldMode :=
  c <- opt session (fun s => d <- get s "data" ;; get d "isAdmin") ;;
  Normal (if truthy c then edit else read).

(** ** The documented shapes of the arguments *)

(** [id: string | number] *)
Inductive Identifier : Type :=
| IdStr (s : string)
| IdNum (x : float).

Definition Identifier_value (i : Identifier) : value :=
  match i with
  | IdStr s => VStr s
  | IdNum x => VNum x
  end.

(** Modelled from the spec: the [Session] type, which the source leaves as
    [any] ("we have this defined elsewhere").  The data model gives it as
    [{ itemId: Identifier, data: { isAdmin: boolean, isEnabled: boolean } }]
    or absent. *)
Record SessionData : Type := mkSessionData {
  isAdmin : bool;
  isEnabled : bool
}.

Record Session : Type := mkSession {
  itemId : Identifier;
  data : SessionData
}.

(** [session?: Session]: the property may be left out ([undefined]), and
    the data model writes the absent session as [null]. *)
Inductive Absent : Type := AbsentUndefined | AbsentNull.

Inductive SessionArg : Type :=
| NoSession (a : Absent)
| HasSession (ref : nat) (s : Session).

Definition Absent_value (a : Absent) : value :=
  match a with
  | AbsentUndefined => VUndefined
  | AbsentNull => VNull
  end.

Definition SessionData_value (ref : nat) (d : SessionData) : value :=
  VObj ref [("isAdmin", VBool (isAdmin d)); ("isEnabled", VBool (isEnabled d))].

(** The session object and its [data] object are two objects. *)
Definition Session_value (ref : nat) (s : Session) : value :=
  VObj ref [("itemId", Identifier_value (itemId s));
            ("data", SessionData_value (S ref) (data s))].

Definition SessionArg_value (s : SessionArg) : value :=
  match s with
  | NoSession a => Absent_value a
  | HasSession ref s => Session_value ref s
  end.

(** "[session.data.isAdmin] is true", false for an absent session. *)
Definition session_isAdmin (s : SessionArg) : bool :=
  match s with
  | NoSession _ => false
  | HasSession _ s => isAdmin (data s)
  end.

Definition session_present (s : SessionArg) : bool :=
  match s with
  | NoSession _ => false
  | HasSession _ _ => true
  end.

(** [type GenericItem = { id: string | number; [path: string]: any }] *)
Record GenericItem : Type := mkItem {
  item_ref : nat;
  id : Identifier;
  paths : list (string * value)
}.

Definition GenericItem_value (i : GenericItem) : value :=
  VObj (item_ref i) (("id", Identifier_value (id i)) :: paths i).

(** Modelled from the spec: the documented rule for the password field,
    "allowed if session exists and ([session.data.isAdmin] or
    [session.itemId === item.id])", to be compared with what
    [password_access_update] computes. *)
Definition password_rule (s : SessionArg) (i : GenericItem) : bool :=
  match s with
  | NoSession _ => false
  | HasSession _ s =>
      isAdmin (data s)
      || strict_eq (Identifier_value (itemId s)) (Identifier_value (id i))
  end.

(** Modelled from the spec: the documented rule for [hideDelete], "true
    unless [session.data.isAdmin]". *)
Definition hideDelete_rule (s : SessionArg) : bool :=
  negb (session_isAdmin s).

(** The scenarios of the testable properties:
    [session = {itemId: 'u1', data: {isAdmin: false}}] with
    [item = {id: 'u1'}], and the admin [u2]. *)
Definition u1 : SessionArg :=
  HasSession 1 (mkSession (IdStr "u1") (mkSessionData false true)).

Definition u2_admin : SessionArg :=
  HasSession 3 (mkSession (IdStr "u2") (mkSessionData true true)).

Definition item_u1 : GenericItem := mkItem 10 (IdStr "u1") [].

(** The same record under another primary key. *)
Definition item_u9 : GenericItem := mkItem 11 (IdStr "u9") [].

(** A present session that carries no [data] property. *)
Definition session_without_data : value := VObj 1 [("itemId", VStr "u1")].

(** ** Items of the [User] list, and reading outcomes *)

(** An item of the list: its [id] and the five declared [fields], [name],
    [email], [password], [isAdmin] and [isEnabled], whatever they hold. *)
Record UserItem : Type := mkUser {
  user_ref : nat;
  user_id : Identifier;
  user_name : value;
  user_email : value;
  user_password : value;
  user_isAdmin : value;
  user_isEnabled : value
}.

Definition User_item (u : UserItem) : GenericItem :=
  mkItem (user_ref u) (user_id u)
    [("name", user_name u); ("email", user_email u);
     ("password", user_password u); ("isAdmin", user_isAdmin u);
     ("isEnabled", user_isEnabled u)].

(** The session is there ([session?.] goes on) and its [data] is
    [undefined] or [null]: the next [.isAdmin] has nothing to read from.  A
    primitive session has no [data]. *)
Definition missing_data (session : value) : bool :=
  match session with
  | VUndefined | VNull => false
  | VObj _ props => nullish (own props "data")
  | _ => true
  end.

Definition FieldMode_eqb (a b : FieldMode) : bool :=
  match a, b with
  | edit, edit | read, read | hidden, hidden => true
  | _, _ => false
  end.

(** The [fieldMode] function returned [m] (and did not throw). *)
Definition returns_mode (c : completion FieldMode) (m : FieldMode) : bool :=
  match c with
  | Normal r => FieldMode_eqb r m
  | ThrowTypeError => false
  end.

(** An item that carries an [itemId] path of its own, and a user item. *)
Definition u1_item_with_itemId : GenericItem :=
  mkItem 12 (IdStr "u7") [("itemId", VStr "u1")].

Definition alice : UserItem :=
  mkUser 20 (IdStr "u1") (VStr "Alice") (VStr "alice@example.com")
    (VStr "$2a$10$hash") (VBool false) (VBool true).

(** ** Running the predicates on the scenarios *)

Example delete_null : User_access_delete VNull = Normal VUndefined.
Proof. reflexivity. Qed.

Example delete_u1 :
  User_access_delete (SessionArg_value u1) = Normal (VBool false).
Proof. reflexivity. Qed.

Example delete_u2 :
  User_access_delete (SessionArg_value u2_admin) = Normal (VBool true).
Proof. reflexivity. Qed.

Example password_update_null :
  password_access_update VNull (GenericItem_value item_u1) = Normal VNull.
Proof. reflexivity. Qed.

Example password_update_u2 :
  password_access_update (SessionArg_value u2_admin) (GenericItem_value item_u1)
  = Normal (VBool true).
Proof. reflexivity. Qed.

Example password_mode_u2 :
  password_itemView_fieldMode (SessionArg_value u2_admin)
    (GenericItem_value item_u1) = Normal edit.
Proof. reflexivity. Qed.

Example isAdmin_mode_u1 :
  isAdmin_itemView_fieldMode (SessionArg_value u1) = Normal read.
Proof. reflexivity. Qed.

Example isAdmin_mode_u2 :
  isAdmin_itemView_fieldMode (SessionArg_value u2_admin) = Normal edit.
Proof. reflexivity. Qed.

Example modes_null :
  password_itemView_fieldMode VNull (GenericItem_value item_u1) = Normal hidden
  /\ isAdmin_itemView_fieldMode VNull = Normal read
  /\ isEnabled_itemView_fieldMode VNull = Normal read.
Proof. repeat split. Qed.

(** ** Reading the documented shapes *)

Section Shapes.

Variables (ref : nat) (s : Session).

Lemma get_data :
  get (Session_value ref s) "data"
  = Normal (SessionData_value (S ref) (data s)).
Proof. reflexivity. Qed.

Lemma get_itemId :
  get (Session_value ref s) "itemId" = Normal (Identifier_value (itemId s)).
Proof. reflexivity. Qed.

Lemma get_isAdmin :
  get (SessionData_value (S ref) (data s)) "isAdmin"
  = Normal (VBool (isAdmin (data s))).
Proof. reflexivity. Qed.

(** On a present session of the documented shape the admin chain, with
    or without the second [?.], is the flag itself. *)
Lemma chain_present :
  opt (Session_value ref s) (fun s => d <- get s "data" ;; get d "isAdmin")
  = Normal (VBool (isAdmin (data s))).
Proof. reflexivity. Qed.

Lemma chain2_present :
  opt (Session_value ref s)
    (fun s => d <- get s "data" ;; opt d (fun d => get d "isAdmin"))
  = Normal (VBool (isAdmin (data s))).
Proof. reflexivity. Qed.

End Shapes.

(** An item's [itemId] is whatever its other paths hold under that name; its
    [id] is not consulted. *)
Lemma get_item_itemId (i : GenericItem) :
  get (GenericItem_value i) "itemId" = Normal (own (paths i) "itemId").
Proof. reflexivity. Qed.

(** On an absent session both chains are [undefined]. *)
Lemma chain_absent (a : Absent) (rest : value -> completion value) :
  opt (Absent_value a) rest = Normal VUndefined.
Proof. destruct a; reflexivity. Qed.

(** What the password condition computes on the documented shapes. *)
Lemma password_condition_present (ref : nat) (s : Session) (i : GenericItem) :
  password_condition (Session_value ref s) (GenericItem_value i)
  = Normal (VBool (isAdmin (data s)
                   || strict_eq (Identifier_value (itemId s))
                                (own (paths i) "itemId"))).
Proof.
  unfold password_condition.
  change (truthy (Session_value ref s)) with true; cbv iota.
  rewrite get_data; cbn [bind].
  rewrite get_isAdmin; cbn [bind truthy].
  destruct (isAdmin (data s)); [reflexivity|].
  rewrite get_itemId, get_item_itemId. reflexivity.
Qed.

Lemma password_condition_absent (a : Absent) (item : value) :
  password_condition (Absent_value a) item = Normal (Absent_value a).
Proof. destruct a; reflexivity. Qed.

(** The optional chain of [delete] and [hideDelete] cannot throw, whatever
    the session is. *)
Lemma User_access_delete_never_throws (session : value) :
  throws (User_access_delete session) = false.
Proof.
  unfold User_access_delete, opt.
  destruct session as [| | b | x | n | str | sy | r props]; try reflexivity.
  cbn [nullish get bind].
  destruct (own props "data"); reflexivity.
Qed.

(** ** The list-level [delete] predicate *)

(** C4: for every session, [delete] on the User list allows exactly when
    [session.data.isAdmin] is true, and denies (a falsy value, no throw)
    for every absent session and every session whose [isAdmin] is false. *)
Theorem User_access_delete_iff_admin (s : SessionArg) :
  allows (User_access_delete (SessionArg_value s)) = session_isAdmin s
  /\ denies (User_access_delete (SessionArg_value s))
     = negb (session_isAdmin s).
Proof.
  unfold User_access_delete.
  destruct s as [a | ref s]; cbn [SessionArg_value session_isAdmin].
  - rewrite chain_absent. split; reflexivity.
  - rewrite chain2_present. split; reflexivity.
Qed.

(** C2: [hideDelete] is the very chain of [delete], without a negation: it
    is [undefined] for an absent session, [false] for the non-admin [u1]
    and [true] for the admin [u2], the opposite of "true unless admin" at
    each of the three. *)
Theorem User_admin_hideDelete_inverted :
  User_admin_hideDelete VNull = Normal VUndefined
  /\ hideDelete_rule (NoSession AbsentNull) = true
  /\ User_admin_hideDelete (SessionArg_value u1) = Normal (VBool false)
  /\ hideDelete_rule u1 = true
  /\ User_admin_hideDelete (SessionArg_value u2_admin) = Normal (VBool true)
  /\ hideDelete_rule u2_admin = false.
Proof. repeat split. Qed.

(** On every session of the documented shape [hideDelete] is truthy exactly
    when the documented rule says it should not be. *)
Lemma User_admin_hideDelete_is_admin (s : SessionArg) :
  allows (User_admin_hideDelete (SessionArg_value s))
  = negb (hideDelete_rule s).
Proof.
  unfold User_admin_hideDelete, hideDelete_rule.
  rewrite negb_involutive.
  destruct s as [a | ref s]; cbn [SessionArg_value session_isAdmin].
  - now rewrite chain_absent.
  - now rewrite chain2_present.
Qed.

(** ** The field-level [update] predicates *)

(** C5: for every session, the [update] predicates of the [isAdmin] field
    and of the [isEnabled] field both allow exactly when
    [session.data.isAdmin] is true, and deny otherwise. *)
Theorem flag_update_iff_admin (s : SessionArg) :
  allows (isAdmin_access_update (SessionArg_value s)) = session_isAdmin s
  /\ denies (isAdmin_access_update (SessionArg_value s))
     = negb (session_isAdmin s)
  /\ allows (isEnabled_access_update (SessionArg_value s)) = session_isAdmin s
  /\ denies (isEnabled_access_update (SessionArg_value s))
     = negb (session_isAdmin s).
Proof.
  unfold isAdmin_access_update, isEnabled_access_update.
  destruct s as [a | ref s]; cbn [SessionArg_value session_isAdmin].
  - rewrite chain_absent. repeat split.
  - rewrite chain_present. repeat split.
Qed.

(** C1: the non-admin [u1] updating the password of the item whose [id] is
    ['u1'] is allowed by the documented rule, and the predicate returns
    [false]: it compares [session.itemId] with [item.itemId], which this
    item does not have. *)
Theorem password_access_update_denies_self :
  password_access_update (SessionArg_value u1) (GenericItem_value item_u1)
  = Normal (VBool false)
  /\ password_rule u1 item_u1 = true.
Proof. split; reflexivity. Qed.

(** What the predicate decides on the documented shapes: the comparison is
    with the item's [itemId] path. *)
Lemma password_access_update_present (ref : nat) (s : Session)
      (i : GenericItem) :
  allows (password_access_update (Session_value ref s) (GenericItem_value i))
  = isAdmin (data s)
    || strict_eq (Identifier_value (itemId s)) (own (paths i) "itemId").
Proof.
  unfold password_access_update.
  now rewrite password_condition_present.
Qed.

(** C7: for the non-admin session with [itemId] ['u1'] viewing the item
    with [id] ['u1'] the password [fieldMode] is ['hidden'], where the
    documented rule gives ['edit']. *)
Theorem password_itemView_fieldMode_hides_self :
  password_itemView_fieldMode (SessionArg_value u1) (GenericItem_value item_u1)
  = Normal hidden
  /\ password_rule u1 item_u1 = true.
Proof. split; reflexivity. Qed.

(** C6: whenever the password [update] predicate denies for a session and
    an item, the password [fieldMode] for the same pair is ['hidden']. *)
Theorem password_presentation_parity (session item : value) :
  denies (password_access_update session item) = true ->
  password_itemView_fieldMode session item = Normal hidden.
Proof.
  unfold password_access_update, password_itemView_fieldMode.
  destruct (password_condition session item) as [v |]; cbn [denies bind].
  - intros H. apply negb_true_iff in H. now rewrite H.
  - discriminate.
Qed.

Lemma password_presentation_parity_witness :
  denies (password_access_update (SessionArg_value u1)
            (GenericItem_value item_u9)) = true
  /\ password_itemView_fieldMode (SessionArg_value u1)
       (GenericItem_value item_u9) = Normal hidden.
Proof.
  split; [reflexivity |].
  apply (password_presentation_parity (SessionArg_value u1)
           (GenericItem_value item_u9)).
  reflexivity.
Defined.

(** C10: the two password predicates depend on the item through its
    [itemId] property only: two items that read the same under [itemId]
    get the same results from both, whatever their [id]. *)
Theorem password_ignores_item_id (session item1 item2 : value) :
  get item1 "itemId" = get item2 "itemId" ->
  password_access_update session item1 = password_access_update session item2
  /\ password_itemView_fieldMode session item1
     = password_itemView_fieldMode session item2.
Proof.
  intros H.
  assert (E : password_condition session item1
              = password_condition session item2).
  { unfold password_condition. now rewrite H. }
  unfold password_access_update, password_itemView_fieldMode.
  now rewrite E.
Qed.

Lemma password_ignores_item_id_witness :
  get (GenericItem_value item_u1) "itemId"
  = get (GenericItem_value item_u9) "itemId"
  /\ get (GenericItem_value item_u1) "id"
     <> get (GenericItem_value item_u9) "id"
  /\ password_access_update (SessionArg_value u1) (GenericItem_value item_u1)
     = password_access_update (SessionArg_value u1) (GenericItem_value item_u9)
  /\ password_itemView_fieldMode (SessionArg_value u1)
       (GenericItem_value item_u1)
     = password_itemView_fieldMode (SessionArg_value u1)
         (GenericItem_value item_u9).
Proof.
  split; [reflexivity |].
  split; [discriminate |].
  apply (password_ignores_item_id (SessionArg_value u1)
           (GenericItem_value item_u1) (GenericItem_value item_u9)).
  reflexivity.
Defined.

(** ** Absent sessions, absent [data], and the type of the result *)

(** C8: on an absent session ([undefined] or [null]) the list-level
    [delete] and the three field-level [update] predicates evaluate,
    without throwing, to a falsy value: access is denied. *)
Theorem absent_session_denies (a : Absent) (item : value) :
  denies (User_access_delete (Absent_value a)) = true
  /\ denies (password_access_update (Absent_value a) item) = true
  /\ denies (isAdmin_access_update (Absent_value a)) = true
  /\ denies (isEnabled_access_update (Absent_value a)) = true.
Proof.
  unfold password_access_update.
  rewrite password_condition_absent.
  destruct a; repeat split.
Qed.

(** C3: on a present session that has no [data] property, only [delete]
    (which chains [?.data?.isAdmin]) evaluates; the three [update]
    predicates and the three [fieldMode] functions read [.isAdmin] of
    [undefined] and throw. *)
Theorem session_without_data_throws :
  User_access_delete session_without_data = Normal VUndefined
  /\ password_access_update session_without_data (GenericItem_value item_u1)
     = ThrowTypeError
  /\ isAdmin_access_update session_without_data = ThrowTypeError
  /\ isEnabled_access_update session_without_data = ThrowTypeError
  /\ password_itemView_fieldMode session_without_data
       (GenericItem_value item_u1) = ThrowTypeError
  /\ isAdmin_itemView_fieldMode session_without_data = ThrowTypeError
  /\ isEnabled_itemView_fieldMode session_without_data = ThrowTypeError.
Proof. repeat split. Qed.

(** The same with [data: null]. *)
Lemma session_with_null_data_throws :
  let session := VObj 1 [("itemId", VStr "u1"); ("data", VNull)] in
  User_access_delete session = Normal VUndefined
  /\ password_access_update session (GenericItem_value item_u1)
     = ThrowTypeError
  /\ isAdmin_access_update session = ThrowTypeError
  /\ isEnabled_access_update session = ThrowTypeError.
Proof. repeat split. Qed.

(** Against C9 as stated: with no session, [delete] returns [undefined]
    and the password [update] returns the [null] it was given; neither is
    a boolean. *)
Lemma access_result_not_boolean :
  User_access_delete VUndefined = Normal VUndefined
  /\ is_boolean (User_access_delete VUndefined) = false
  /\ password_access_update VNull (GenericItem_value item_u1) = Normal VNull
  /\ is_boolean (password_access_update VNull (GenericItem_value item_u1))
     = false.
Proof. repeat split. Qed.

(** C9, amended: on a present session of the documented shape each
    list-level and field-level access predicate returns a boolean, [true]
    to allow and [false] to deny; on an absent session [delete] and the two
    flag predicates return [undefined] and the password predicate returns
    the absent session value itself, all of them falsy. *)
Theorem access_result_boolean_when_present
        (ref : nat) (s : Session) (i : GenericItem) (a : Absent) :
  (User_access_delete (Session_value ref s) = Normal (VBool (isAdmin (data s)))
   /\ isAdmin_access_update (Session_value ref s)
      = Normal (VBool (isAdmin (data s)))
   /\ isEnabled_access_update (Session_value ref s)
      = Normal (VBool (isAdmin (data s)))
   /\ is_boolean (password_access_update (Session_value ref s)
                    (GenericItem_value i)) = true)
  /\ (User_access_delete (Absent_value a) = Normal VUndefined
      /\ isAdmin_access_update (Absent_value a) = Normal VUndefined
      /\ isEnabled_access_update (Absent_value a) = Normal VUndefined
      /\ password_access_update (Absent_value a) (GenericItem_value i)
         = Normal (Absent_value a)
      /\ truthy (Absent_value a) = false).
Proof.
  split.
  - unfold password_access_update.
    rewrite password_condition_present.
    repeat split.
  - unfold password_access_update.
    rewrite password_condition_absent.
    destruct a; repeat split.
Qed.

(** ** When the predicates throw *)






(** ** How the predicates agree with one another *)

(** X4: on every session whatsoever, [delete] allows exactly when
    [isAdmin.update] and [isEnabled.update] allow; it denies where they
    deny and also where they throw for want of [data]. *)
Theorem delete_agrees_with_flag_update (session : value) :
  allows (User_access_delete session) = allows (isAdmin_access_update session)
  /\ allows (User_access_delete session)
     = allows (isEnabled_access_update session)
  /\ denies (User_access_delete session)
     = denies (isAdmin_access_update session) || missing_data session.
Proof.
  unfold User_access_delete, isAdmin_access_update, isEnabled_access_update,
    opt.
  destruct session as [| | b | x | n | str | sy | r props];
    try (repeat split; reflexivity).
  cbn [nullish get bind missing_data].
  destruct (own props "data") as [| | b | x | n | str | sy | r' dprops];
    cbn [nullish get allows denies truthy negb orb];
    repeat split; try reflexivity; now rewrite orb_false_r.
Qed.

(** X5: on every session whatsoever, the [fieldMode] of [isAdmin] and of
    [isEnabled] is ['edit'] exactly when the field's [update] allows and
    ['read'] exactly when it denies; it is never ['hidden']. *)
Theorem flag_fieldMode_follows_update (session : value) :
  (returns_mode (isAdmin_itemView_fieldMode session) edit
   = allows (isAdmin_access_update session)
   /\ returns_mode (isAdmin_itemView_fieldMode session) read
      = denies (isAdmin_access_update session)
   /\ returns_mode (isAdmin_itemView_fieldMode session) hidden = false)
  /\ (returns_mode (isEnabled_itemView_fieldMode session) edit
      = allows (isEnabled_access_update session)
      /\ returns_mode (isEnabled_itemView_fieldMode session) read
         = denies (isEnabled_access_update session)
      /\ returns_mode (isEnabled_itemView_fieldMode session) hidden = false).
Proof.
  unfold isAdmin_itemView_fieldMode, isEnabled_itemView_fieldMode,
    isAdmin_access_update, isEnabled_access_update.
  destruct (opt session _) as [v |]; cbn [bind allows denies returns_mode].
  - destruct (truthy v); repeat split.
  - repeat split.
Qed.

(** X6: on every session and item whatsoever, the password [fieldMode] is
    ['edit'] exactly when the password [update] allows and ['hidden']
    exactly when it denies; it is never ['read']. *)
Theorem password_fieldMode_follows_update (session item : value) :
  returns_mode (password_itemView_fieldMode session item) edit
  = allows (password_access_update session item)
  /\ returns_mode (password_itemView_fieldMode session item) hidden
     = denies (password_access_update session item)
  /\ returns_mode (password_itemView_fieldMode session item) read = false.
Proof.
  unfold password_itemView_fieldMode, password_access_update.
  destruct (password_condition session item) as [v |];
    cbn [bind allows denies returns_mode].
  - destruct (truthy v); repeat split.
  - repeat split.
Qed.

(** X7: on a session of the documented shape the [fieldMode] of [isAdmin]
    and of [isEnabled] is ['edit'] for an admin and ['read'] for everyone
    else, the absent session included. *)
Theorem flag_fieldMode_by_shape (s : SessionArg) :
  isAdmin_itemView_fieldMode (SessionArg_value s)
  = Normal (if session_isAdmin s then edit else read)
  /\ isEnabled_itemView_fieldMode (SessionArg_value s)
     = Normal (if session_isAdmin s then edit else read).
Proof.
  unfold isAdmin_itemView_fieldMode, isEnabled_itemView_fieldMode.
  destruct s as [a | ref s]; cbn [SessionArg_value session_isAdmin].
  - rewrite chain_absent. split; reflexivity.
  - rewrite chain_present. split; reflexivity.
Qed.

(** A truthy admin chain comes from an object session whose [data] is an
    object with a truthy [isAdmin]. *)
Lemma delete_allows_inv (session : value) :
  allows (User_access_delete session) = true ->
  exists r props r' dprops,
    session = VObj r props
    /\ own props "data" = VObj r' dprops
    /\ truthy (own dprops "isAdmin") = true.
Proof.
  unfold User_access_delete, opt.
  destruct session as [| | b | x | n | str | sy | r props];
    cbn [nullish get bind allows truthy]; try discriminate.
  destruct (own props "data") as [| | b | x | n | str | sy | r' dprops] eqn:Hd;
    cbn [nullish get allows truthy]; try discriminate.
  intros H. now exists r, props, r', dprops.
Qed.

(** X8: a session that may [delete] may do everything else: for every
    item, even a missing one, the three [update] predicates allow and the
    three [fieldMode] functions answer ['edit']; the item is not read. *)
Theorem delete_right_implies_all (session item : value) :
  allows (User_access_delete session) = true ->
  allows (password_access_update session item) = true
  /\ allows (isAdmin_access_update session) = true
  /\ allows (isEnabled_access_update session) = true
  /\ password_itemView_fieldMode session item = Normal edit
  /\ isAdmin_itemView_fieldMode session = Normal edit
  /\ isEnabled_itemView_fieldMode session = Normal edit.
Proof.
  intros H.
  destruct (delete_allows_inv session H)
    as (r & props & r' & dprops & -> & Hd & Ha).
  unfold password_access_update, password_itemView_fieldMode,
    password_condition, isAdmin_access_update, isEnabled_access_update,
    isAdmin_itemView_fieldMode, isEnabled_itemView_fieldMode, opt.
  cbn [truthy nullish get bind].
  rewrite Hd. cbn [get bind]. rewrite Ha. cbn [bind allows].
  rewrite Ha. repeat split.
Qed.

Lemma delete_right_implies_all_witness :
  allows (User_access_delete (SessionArg_value u2_admin)) = true
  /\ (allows (password_access_update (SessionArg_value u2_admin) VUndefined)
      = true
      /\ allows (isAdmin_access_update (SessionArg_value u2_admin)) = true
      /\ allows (isEnabled_access_update (SessionArg_value u2_admin)) = true
      /\ password_itemView_fieldMode (SessionArg_value u2_admin) VUndefined
         = Normal edit
      /\ isAdmin_itemView_fieldMode (SessionArg_value u2_admin) = Normal edit
      /\ isEnabled_itemView_fieldMode (SessionArg_value u2_admin)
         = Normal edit).
Proof.
  split; [reflexivity |].
  apply (delete_right_implies_all (SessionArg_value u2_admin) VUndefined).
  reflexivity.
Defined.

(** X9: a session that is falsy without being absent ([false], [0],
    [NaN], [0n] or the empty string) is denied by [delete] and by the
    password [update], whose [fieldMode] is ['hidden'], while the
    [isAdmin] and [isEnabled] [update] predicates throw on it. *)
Theorem falsy_session_denied_or_throws (session item : value) :
  truthy session = false ->
  nullish session = false ->
  denies (User_access_delete session) = true
  /\ password_access_update session item = Normal session
  /\ password_itemView_fieldMode session item = Normal hidden
  /\ isAdmin_access_update session = ThrowTypeError
  /\ isEnabled_access_update session = ThrowTypeError.
Proof.
  intros Hf Hn.
  unfold password_access_update, password_itemView_fieldMode,
    password_condition.
  rewrite Hf. cbn [bind]. rewrite Hf.
  destruct session; try discriminate; repeat split.
Qed.

Lemma falsy_session_denied_or_throws_witness :
  truthy (VStr "") = false
  /\ nullish (VStr "") = false
  /\ (denies (User_access_delete (VStr "")) = true
      /\ password_access_update (VStr "") (GenericItem_value item_u1)
         = Normal (VStr "")
      /\ password_itemView_fieldMode (VStr "") (GenericItem_value item_u1)
         = Normal hidden
      /\ isAdmin_access_update (VStr "") = ThrowTypeError
      /\ isEnabled_access_update (VStr "") = ThrowTypeError).
Proof.
  split; [reflexivity |].
  split; [reflexivity |].
  apply (falsy_session_denied_or_throws (VStr "") (GenericItem_value item_u1));
    reflexivity.
Defined.

(** ** The password predicates on the documented shapes *)

(** Both password predicates, once the shared condition is known. *)
Lemma password_pair_present (ref : nat) (s : Session) (i : GenericItem) :
  let b := isAdmin (data s)
           || strict_eq (Identifier_value (itemId s))
                        (own (paths i) "itemId") in
  password_access_update (Session_value ref s) (GenericItem_value i)
  = Normal (VBool b)
  /\ password_itemView_fieldMode (Session_value ref s) (GenericItem_value i)
     = Normal (if b then edit else hidden).
Proof.
  unfold password_access_update, password_itemView_fieldMode.
  rewrite password_condition_present. split; reflexivity.
Qed.

(** X10: for a present session and an item of the documented shapes, the
    password [update] returns the boolean "admin, or [session.itemId]
    strictly equal to the item's [itemId] path", and the [fieldMode] is
    ['edit'] on [true] and ['hidden'] on [false]; the item's [id] plays no
    part. *)
Theorem password_predicates_by_shape (ref : nat) (s : Session)
        (i : GenericItem) :
  password_access_update (Session_value ref s) (GenericItem_value i)
  = Normal (VBool (isAdmin (data s)
                   || strict_eq (Identifier_value (itemId s))
                                (own (paths i) "itemId")))
  /\ password_itemView_fieldMode (Session_value ref s) (GenericItem_value i)
     = Normal (if isAdmin (data s)
                  || strict_eq (Identifier_value (itemId s))
                               (own (paths i) "itemId")
               then edit else hidden).
Proof. exact (password_pair_present ref s i). Qed.

Lemma Identifier_never_undefined (k : Identifier) :
  strict_eq (Identifier_value k) VUndefined = false.
Proof. destruct k; reflexivity. Qed.

(** X11: a session that is not an admin cannot update the password of any
    item of the [User] list, its own included: such an item has the [id]
    and the five declared fields and no [itemId], so the predicate returns
    [false] and the field is ['hidden']. *)
Theorem password_closed_to_non_admins (ref : nat) (s : Session)
        (u : UserItem) :
  isAdmin (data s) = false ->
  password_access_update (Session_value ref s)
    (GenericItem_value (User_item u)) = Normal (VBool false)
  /\ password_itemView_fieldMode (Session_value ref s)
       (GenericItem_value (User_item u)) = Normal hidden.
Proof.
  intros Hna.
  destruct (password_pair_present ref s (User_item u)) as [Eu Em].
  rewrite Eu, Em, Hna.
  change (own (paths (User_item u)) "itemId") with VUndefined.
  rewrite Identifier_never_undefined. split; reflexivity.
Qed.

Lemma password_closed_to_non_admins_witness :
  isAdmin (data (mkSession (IdStr "u1") (mkSessionData false true))) = false
  /\ (password_access_update
        (Session_value 1 (mkSession (IdStr "u1") (mkSessionData false true)))
        (GenericItem_value (User_item alice)) = Normal (VBool false)
      /\ password_itemView_fieldMode
           (Session_value 1
              (mkSession (IdStr "u1") (mkSessionData false true)))
           (GenericItem_value (User_item alice)) = Normal hidden).
Proof.
  split; [reflexivity |].
  apply (password_closed_to_non_admins 1
           (mkSession (IdStr "u1") (mkSessionData false true)) alice).
  reflexivity.
Defined.

(** X12: an item that does carry an [itemId] path holding the session's
    string [itemId] has its password open to that session, admin or not,
    and shows the field as ['edit']. *)
Theorem password_open_on_matching_itemId (ref : nat) (s : Session)
        (i : GenericItem) (k : string) :
  itemId s = IdStr k ->
  own (paths i) "itemId" = VStr k ->
  password_access_update (Session_value ref s) (GenericItem_value i)
  = Normal (VBool true)
  /\ password_itemView_fieldMode (Session_value ref s) (GenericItem_value i)
     = Normal edit.
Proof.
  intros Hs Hi.
  destruct (password_pair_present ref s i) as [Eu Em].
  rewrite Eu, Em, Hs, Hi.
  cbn [Identifier_value strict_eq].
  rewrite String.eqb_refl, orb_true_r. split; reflexivity.
Qed.

Lemma password_open_on_matching_itemId_witness :
  itemId (mkSession (IdStr "u1") (mkSessionData false true)) = IdStr "u1"
  /\ own (paths u1_item_with_itemId) "itemId" = VStr "u1"
  /\ (password_access_update
        (Session_value 1 (mkSession (IdStr "u1") (mkSessionData false true)))
        (GenericItem_value u1_item_with_itemId) = Normal (VBool true)
      /\ password_itemView_fieldMode
           (Session_value 1
              (mkSession (IdStr "u1") (mkSessionData false true)))
           (GenericItem_value u1_item_with_itemId) = Normal edit).
Proof.
  split; [reflexivity |].
  split; [reflexivity |].
  apply (password_open_on_matching_itemId 1
           (mkSession (IdStr "u1") (mkSessionData false true))
           u1_item_with_itemId "u1"); reflexivity.
Defined.

(** X13: the comparison is strict: for a session that is not an admin, a
    numeric [session.itemId] never matches an [itemId] path that is a
    string, nor a string one a number, whatever the digits. *)
Theorem password_no_coercion (ref : nat) (s : Session) (i : GenericItem)
        (x : float) (k : string) :
  isAdmin (data s) = false ->
  (itemId s = IdNum x /\ own (paths i) "itemId" = VStr k)
  \/ (itemId s = IdStr k /\ own (paths i) "itemId" = VNum x) ->
  password_access_update (Session_value ref s) (GenericItem_value i)
  = Normal (VBool false)
  /\ password_itemView_fieldMode (Session_value ref s) (GenericItem_value i)
     = Normal hidden.
Proof.
  intros Hna H.
  destruct (password_pair_present ref s i) as [Eu Em].
  rewrite Eu, Em, Hna.
  destruct H as [[Hs Hi] | [Hs Hi]]; rewrite Hs, Hi; split; reflexivity.
Qed.

Lemma password_no_coercion_witness :
  isAdmin (data (mkSession (IdNum 1%float) (mkSessionData false true))) = false
  /\ ((itemId (mkSession (IdNum 1%float) (mkSessionData false true))
       = IdNum 1%float
       /\ own (paths (mkItem 13 (IdStr "1") [("itemId", VStr "1")])) "itemId"
          = VStr "1")
      \/ (itemId (mkSession (IdNum 1%float) (mkSessionData false true))
          = IdStr "1"
          /\ own (paths (mkItem 13 (IdStr "1") [("itemId", VStr "1")]))
               "itemId" = VNum 1%float))
  /\ (password_access_update
        (Session_value 1
           (mkSession (IdNum 1%float) (mkSessionData false true)))
        (GenericItem_value (mkItem 13 (IdStr "1") [("itemId", VStr "1")]))
      = Normal (VBool false)
      /\ password_itemView_fieldMode
           (Session_value 1
              (mkSession (IdNum 1%float) (mkSessionData false true)))
           (GenericItem_value (mkItem 13 (IdStr "1") [("itemId", VStr "1")]))
         = Normal hidden).
Proof.
  split; [reflexivity |].
  split; [left; split; reflexivity |].
  apply (password_no_coercion 1
           (mkSession (IdNum 1%float) (mkSessionData false true))
           (mkItem 13 (IdStr "1") [("itemId", VStr "1")]) 1%float "1").
  - reflexivity.
  - left. split; reflexivity.
Defined.

(** ** What the predicates never read *)

(** X14: no predicate reads [session.data.isEnabled]: two sessions that
    differ in it alone get the same answer from all eight functions, so a
    disabled admin keeps every right. *)
Theorem isEnabled_never_read (ref : nat) (k : Identifier) (adm e1 e2 : bool)
        (i : GenericItem) :
  let s1 := Session_value ref (mkSession k (mkSessionData adm e1)) in
  let s2 := Session_value ref (mkSession k (mkSessionData adm e2)) in
  User_access_delete s1 = User_access_delete s2
  /\ User_admin_hideDelete s1 = User_admin_hideDelete s2
  /\ password_access_update s1 (GenericItem_value i)
     = password_access_update s2 (GenericItem_value i)
  /\ password_itemView_fieldMode s1 (GenericItem_value i)
     = password_itemView_fieldMode s2 (GenericItem_value i)
  /\ isAdmin_access_update s1 = isAdmin_access_update s2
  /\ isAdmin_itemView_fieldMode s1 = isAdmin_itemView_fieldMode s2
  /\ isEnabled_access_update s1 = isEnabled_access_update s2
  /\ isEnabled_itemView_fieldMode s1 = isEnabled_itemView_fieldMode s2.
Proof.
  intros s1 s2. subst s1 s2.
  unfold User_access_delete, User_admin_hideDelete, password_access_update,
    password_itemView_fieldMode, isAdmin_access_update,
    isAdmin_itemView_fieldMode, isEnabled_access_update,
    isEnabled_itemView_fieldMode.
  rewrite !chain_present, !chain2_present, !password_condition_present.
  repeat split.
Qed.
